(** * django-localized-fields: [LocalizedField]

    A shallow embedding of [localized_fields/fields/field.py] and of the
    settings module [settings.py], followed by the properties of the field's
    conversion, cleaning and validation methods.

    Python objects are values of [pyval]; a Python [dict] with string keys is
    a [gmap string pyval].  Methods that can raise return a [result]. *)

From stdpp Require Import gmap strings list fin_maps.

Set Warnings "-register-all".

(** ** Python values *)

(** The objects the field's methods receive and return.  [PyLocalized] is an
    instance of the container class [LocalizedValue]; its payload is the
    mapping from language code to value that the instance holds. *)
Inductive pyval : Type :=
| PyNone
| PyBool (b : bool)
| PyInt (n : Z)
| PyStr (s : string)
| PyList (xs : list pyval)
| PyDict (d : gmap string pyval)
| PyLocalized (entries : gmap string pyval).

(** [x is None] *)
Definition is_None (x : pyval) : bool :=
  match x with
  | PyNone => true
  | _ => false
  end.

(** [bool(x)]: Python's truth value.  Containers are true when they have at
    least one element; a [LocalizedValue] is a mapping and follows the same
    rule. *)
Definition truthy (x : pyval) : bool :=
  match x with
  | PyNone => false
  | PyBool b => b
  | PyInt n => negb (n =? 0)%Z
  | PyStr s => negb (String.eqb s EmptyString)
  | PyList xs => negb (Nat.eqb (length xs) 0)
  | PyDict d => negb (Nat.eqb (size d) 0)
  | PyLocalized entries => negb (Nat.eqb (size entries) 0)
  end.

(** [isinstance(x, list)] *)
Definition isinstance_list (x : pyval) : bool :=
  match x with
  | PyList _ => true
  | _ => false
  end.

(** [isinstance(x, LocalizedValue)] *)
Definition isinstance_LocalizedValue (x : pyval) : bool :=
  match x with
  | PyLocalized _ => true
  | _ => false
  end.

(** ** Exceptions *)

Inductive exn : Type :=
| IntegrityError (msg : string)
| AttributeError
| JSONDecodeError
| RecursionError.

Inductive result (A : Type) : Type :=
| Return (a : A)
| Raise (e : exn).

Arguments Return {A} a.
Arguments Raise {A} e.

Definition bind {A B : Type} (c : result A) (k : A -> result B) : result B :=
  match c with
  | Return a => k a
  | Raise e => Raise e
  end.

Notation "x <- c ;; k" := (bind c (fun x => k))
  (at level 100, c at next level, right associativity).

(** [try: c  except json.JSONDecodeError: handler] *)
Definition try_except_JSONDecodeError {A : Type} (c : result A) (handler : result A) : result A :=
  match c with
  | Raise JSONDecodeError => handler
  | other => other
  end.

(** Whether a call raised [IntegrityError]. *)
Definition raises_IntegrityError {A : Type} (c : result A) : Prop :=
  exists msg, c = Raise (IntegrityError msg).

(** ** Settings ([django.conf.settings]) *)

(** The three settings the field reads.  [LOCALIZED_FIELDS_EXPERIMENTAL] is
    read with [getattr(settings, ..., False)], so it may be absent. *)
Record Settings : Type := {
  LANGUAGE_CODE : string;
  LANGUAGES : list (string * string);
  LOCALIZED_FIELDS_EXPERIMENTAL : option pyval
}.

(** [settings.py] of the repository. *)
Definition project_settings : Settings := {|
  LANGUAGE_CODE := "en";
  LANGUAGES := [("en", "English"); ("ro", "Romanian"); ("nl", "Dutch")];
  LOCALIZED_FIELDS_EXPERIMENTAL := None
|}.

(** The attributes of a [LocalizedField] instance that its methods read:
    [self.name] and [self.null]. *)
Record LocalizedField : Type := {
  name : string;
  null : bool
}.

(** ['null value in column "%s.%s" violates not-null constraint' % (a, b)] *)
Definition dquote : string := String (Ascii.ascii_of_nat 34) EmptyString.

Definition not_null_message (a b : string) : string :=
  "null value in column " +:+ dquote +:+ a +:+ "." +:+ b +:+ dquote
  +:+ " violates not-null constraint".

(** ** The value container *)

(** Modelled from the spec: the container class [LocalizedValue], whose
    module [localized_fields/value.py] is not among the source files.  The
    spec describes it as a mapping from language code (string) to text value
    (string or null) whose keys correspond to the configured list of
    languages, one entry per configured language, mutated via attribute
    assignment.  An instance is therefore its mapping; the mapping is what
    [value.get(code)], [getattr(value, code)] and [value.__dict__] read. *)
Definition one_entry_per_language (languages : list (string * string))
    (entries : gmap string pyval) : Prop :=
  forall lang_code : string,
    is_Some (entries !! lang_code) <-> lang_code ∈ languages.*1.

(** Modelled from the spec: a text value is a string or null. *)
Definition text_or_null (x : pyval) : bool :=
  match x with
  | PyNone | PyStr _ => true
  | _ => false
  end.

Definition holds_text (entries : gmap string pyval) : Prop :=
  forall (lang_code : string) (x : pyval),
    entries !! lang_code = Some x -> text_or_null x = true.

(** Modelled from the spec: [value.get(lang_code)], the mapping's lookup,
    which gives [None] for a missing key. *)
Definition LocalizedValue_get (entries : gmap string pyval) (lang_code : string) : pyval :=
  default PyNone (entries !! lang_code).

(** Modelled from the spec: [LocalizedValue()] and [LocalizedValue(keys)]
    for a dict [keys]: one entry per configured language, taken from [keys]
    where it has the language and null otherwise. *)
Definition LocalizedValue_of (languages : list (string * string))
    (keys : gmap string pyval) : gmap string pyval :=
  foldr (fun lang entries =>
           <[lang.1 := default PyNone (keys !! lang.1)]> entries)
        ∅ languages.

(** [getattr(value, attr)] for a language code [attr]: only a container
    instance carries such attributes. *)
Definition getattr (value : pyval) (attr : string) : result pyval :=
  match value with
  | PyLocalized entries =>
      match entries !! attr with
      | Some x => Return x
      | None => Raise AttributeError
      end
  | _ => Raise AttributeError
  end.

(** [value.__dict__] *)
Definition getattr___dict__ (value : pyval) : result (gmap string pyval) :=
  match value with
  | PyLocalized entries => Return entries
  | _ => Raise AttributeError
  end.

(** ** The field *)

Section Field.

(** [django.conf.settings] *)
Variable settings : Settings.

(** [json.loads] on a string.  It returns the decoded value or raises:
    [json.JSONDecodeError] on a malformed document, and whatever else the
    decoder fails with, such as [RecursionError] on a document that is
    nested too deep. *)
Variable json_loads : string -> result pyval.

(** [str(x)] for an object that is not a string. *)
Variable str_builtin : pyval -> string.

(** Whether [LocalizedValue] derives from [dict]; the sources do not say. *)
Variable LocalizedValue_is_dict : bool.

(** What the constructor [LocalizedValue(x)] builds from an argument that is
    not a plain dict; the sources do not say. *)
Variable LocalizedValue_interpret : pyval -> gmap string pyval.

(** [isinstance(x, dict)] *)
Definition isinstance_dict (x : pyval) : bool :=
  match x with
  | PyDict _ => true
  | PyLocalized _ => LocalizedValue_is_dict
  | _ => false
  end.

(** [str(x)] *)
Definition py_str (x : pyval) : string :=
  match x with
  | PyStr s => s
  | _ => str_builtin x
  end.

(** [cls.attr_class()] ([None]) and [cls.attr_class(x)] ([Some x]), where
    [attr_class = LocalizedValue]. *)
Definition attr_class (arg : option pyval) : gmap string pyval :=
  match arg with
  | None => LocalizedValue_of (LANGUAGES settings) ∅
  | Some (PyDict keys) => LocalizedValue_of (LANGUAGES settings) keys
  | Some x => LocalizedValue_interpret x
  end.

(** *** The base class [HStoreField] *)

(** [HStoreField.to_python] of the framework: a string is decoded as JSON,
    and what the decoder raises is raised; anything else is passed
    through. *)
Definition HStoreField_to_python (value : pyval) : result pyval :=
  match value with
  | PyStr s => json_loads s
  | _ => Return value
  end.

(** [HStoreField.get_prep_value] of the framework on what the field hands
    it, a dict or [None]: every value that is not [None] becomes its
    [str]. *)
Definition HStoreField_get_prep_value (value : option (gmap string pyval)) : pyval :=
  match value with
  | Some d => PyDict ((fun val => if is_None val then val else PyStr (py_str val)) <$> d)
  | None => PyNone
  end.

(** *** [LocalizedField.from_db_value] *)

(** The body of the [for inner_val in value] loop: what is appended. *)
Definition from_db_value_inner (inner_val : pyval) : pyval :=
  if isinstance_dict inner_val then
    if is_None inner_val then PyNone
    else PyLocalized (attr_class (Some inner_val))
  else inner_val.

Definition from_db_value (value : pyval) : pyval :=
  if negb (truthy value) then
    if truthy (default (PyBool false) (LOCALIZED_FIELDS_EXPERIMENTAL settings))
    then PyNone
    else PyLocalized (attr_class None)
  else
    match value with
    | PyList xs =>
        PyList (foldl (fun result inner_val => result ++ [from_db_value_inner inner_val]) [] xs)
    | _ =>
        if negb (isinstance_dict value) then value
        else PyLocalized (attr_class (Some value))
    end.

(** *** [LocalizedField.to_python] *)

Definition to_python (value : pyval) : result pyval :=
  deserialized_value <-
    try_except_JSONDecodeError (HStoreField_to_python value) (Return value) ;;
  if negb (truthy deserialized_value) then Return (PyLocalized (attr_class None))
  else Return (PyLocalized (attr_class (Some deserialized_value))).

(** *** [LocalizedField.clean] *)

(** The loop over [settings.LANGUAGES] with its [break]: [is_all_null]
    becomes false at the first language whose value is not [None]. *)
Fixpoint clean_scan (entries : gmap string pyval) (languages : list (string * string))
    (is_all_null : bool) : bool :=
  match languages with
  | [] => is_all_null
  | (lang_code, _) :: rest =>
      if negb (is_None (LocalizedValue_get entries lang_code)) then false
      else clean_scan entries rest is_all_null
  end.

Definition clean (self : LocalizedField) (value : pyval) : pyval :=
  match value with
  | PyLocalized entries =>
      if negb (truthy value) then PyNone
      else
        let is_all_null := clean_scan entries (LANGUAGES settings) true in
        if is_all_null && null self then PyNone else value
  | _ => PyNone
  end.

(** *** [LocalizedField.validate] *)

Definition validate (self : LocalizedField) (value : pyval) : result unit :=
  if null self then Return tt
  else
    primary_lang_val <- getattr value (LANGUAGE_CODE settings) ;;
    if is_None primary_lang_val then
      Raise (IntegrityError (not_null_message (name self) (LANGUAGE_CODE settings)))
    else Return tt.

(** *** [LocalizedField.get_prep_value] *)

Definition get_prep_value (self : LocalizedField) (value : pyval) : result pyval :=
  let value :=
    if negb (isinstance_LocalizedValue value) && truthy value then PyNone else value in
  cleaned_value <-
    (if truthy value then
       let cleaned_value := clean self value in
       _ <- validate self cleaned_value ;;
       Return cleaned_value
     else Return value) ;;
  arg <-
    (if truthy cleaned_value then
       d <- getattr___dict__ cleaned_value ;; Return (Some d)
     else Return None) ;;
  Return (HStoreField_get_prep_value arg).

End Field.

(** ** The field's hook for forms *)

Section Hooks.

(** The objects passed as keyword arguments, and what the base class's
    [formfield] returns. *)
Context {V R : Type}.

(** The form class [LocalizedFieldForm]. *)
Variable LocalizedFieldForm : V.

(** [HStoreField.formfield] of the framework, applied to its keyword
    arguments. *)
Variable HStoreField_formfield : gmap string V -> R.

(** [d.update(other)]: every key of [other] is set in [d]. *)
Definition dict_update (d other : gmap string V) : gmap string V :=
  other ∪ d.

(** The dictionary [defaults] that [formfield] builds and unpacks into the
    base class's call. *)
Definition formfield_defaults (kwargs : gmap string V) : gmap string V :=
  let defaults := {[ "form_class" := LocalizedFieldForm ]} in
  dict_update defaults kwargs.

(** [LocalizedField.formfield] *)
Definition formfield (kwargs : gmap string V) : R :=
  HStoreField_formfield (formfield_defaults kwargs).

End Hooks.

(** ** Sample instances of the parameters *)

(** A decoder that knows two JSON documents and rejects everything else. *)
Definition sample_json_loads (s : string) : result pyval :=
  if String.eqb s "{}" then Return (PyDict ∅)
  else if String.eqb s "null" then Return PyNone
  else Raise JSONDecodeError.

(** The character that opens a JSON array. *)
Definition open_bracket : Ascii.ascii := Ascii.ascii_of_nat 91.

(** ['[' * n]: a document that opens [n] nested arrays. *)
Definition open_brackets (n : N) : string :=
  N.iter n (String open_bracket) EmptyString.

(** The number of arrays a document opens before anything else. *)
Fixpoint leading_brackets (s : string) : N :=
  match s with
  | String c rest =>
      if Ascii.eqb c open_bracket then N.succ (leading_brackets rest) else 0%N
  | EmptyString => 0%N
  end.

(** [sys.getrecursionlimit()], by default. *)
Definition recursion_limit : N := 1000.

(** A decoder that, like [json.loads], gives up with [RecursionError] on a
    document that opens more nested arrays than the interpreter's recursion
    limit allows, and otherwise answers as [sample_json_loads]. *)
Definition nesting_json_loads (s : string) : result pyval :=
  if (recursion_limit <? leading_brackets s)%N then Raise RecursionError
  else sample_json_loads s.

Definition sample_str (x : pyval) : string :=
  match x with
  | PyNone => "None"
  | PyBool true => "True"
  | PyBool false => "False"
  | _ => "<object>"
  end.

Definition sample_interpret (x : pyval) : gmap string pyval :=
  LocalizedValue_of (LANGUAGES project_settings) ∅.

(** Settings that switch the experimental behaviour on. *)
Definition experimental_settings : Settings := {|
  LANGUAGE_CODE := "en";
  LANGUAGES := [("en", "English"); ("ro", "Romanian"); ("nl", "Dutch")];
  LOCALIZED_FIELDS_EXPERIMENTAL := Some (PyBool true)
|}.

Definition required_field : LocalizedField := {| name := "title"; null := false |}.
Definition nullable_field : LocalizedField := {| name := "title"; null := true |}.

(** [LocalizedValue({'en': 'hello', 'nl': ''})] under [project_settings]. *)
Definition hello_value : gmap string pyval :=
  <["en" := PyStr "hello"]> (<["ro" := PyNone]> (<["nl" := PyStr EmptyString]> ∅)).

(** The same value with other texts in the languages that are not primary. *)
Definition hello_value' : gmap string pyval :=
  <["en" := PyStr "hello"]> (<["ro" := PyStr "salut"]> (<["nl" := PyNone]> ∅)).

(** Whether a call raised at all. *)
Definition raises {A : Type} (c : result A) : Prop :=
  exists e, c = Raise e.

(** ** Sanity checks on concrete inputs *)

Example validate_missing_primary :
  validate project_settings required_field
    (PyLocalized (<["en" := PyNone]> hello_value))
  = Raise (IntegrityError
      ("null value in column " +:+ dquote +:+ "title.en" +:+ dquote
       +:+ " violates not-null constraint")).
Proof. vm_compute. reflexivity. Qed.

Example clean_all_null_nullable :
  clean project_settings nullable_field
    (PyLocalized (LocalizedValue_of (LANGUAGES project_settings) ∅)) = PyNone.
Proof. vm_compute. reflexivity. Qed.

Example clean_all_null_required :
  clean project_settings required_field
    (PyLocalized (LocalizedValue_of (LANGUAGES project_settings) ∅))
  = PyLocalized (LocalizedValue_of (LANGUAGES project_settings) ∅).
Proof. vm_compute. reflexivity. Qed.

Example get_prep_value_hello :
  get_prep_value project_settings sample_str required_field (PyLocalized hello_value)
  = Return (PyDict hello_value).
Proof. vm_compute. reflexivity. Qed.

Example to_python_not_json :
  to_python project_settings sample_json_loads sample_interpret (PyStr "hello")
  = Return (PyLocalized (sample_interpret (PyStr "hello"))).
Proof. vm_compute. reflexivity. Qed.

Example to_python_json_null :
  to_python project_settings sample_json_loads sample_interpret (PyStr "null")
  = Return (PyLocalized (LocalizedValue_of (LANGUAGES project_settings) ∅)).
Proof. vm_compute. reflexivity. Qed.

Example from_db_value_list :
  from_db_value project_settings false sample_interpret
    (PyList [PyDict hello_value; PyStr "x"; PyNone])
  = PyList [PyLocalized hello_value; PyStr "x"; PyNone].
Proof. vm_compute. reflexivity. Qed.

(** ** Facts about the model's building blocks *)

Lemma truthy_PyLocalized_false (entries : gmap string pyval) :
  truthy (PyLocalized entries) = false <-> entries = ∅.
Proof.
  simpl. rewrite negb_false_iff, Nat.eqb_eq. apply map_size_empty_iff.
Qed.

Lemma LocalizedValue_get_None_of_empty (lang_code : string) :
  LocalizedValue_get ∅ lang_code = PyNone.
Proof. unfold LocalizedValue_get. by rewrite lookup_empty. Qed.

Lemma lookup_LocalizedValue_of (languages : list (string * string))
    (keys : gmap string pyval) (lang_code : string) :
  LocalizedValue_of languages keys !! lang_code
  = if decide (lang_code ∈ languages.*1)
    then Some (default PyNone (keys !! lang_code)) else None.
Proof.
  induction languages as [|[code label] rest IH].
  - apply lookup_empty.
  - change (LocalizedValue_of ((code, label) :: rest) keys)
      with (<[code := default PyNone (keys !! code)]> (LocalizedValue_of rest keys)).
    rewrite fmap_cons. cbn [fst].
    destruct (decide (code = lang_code)) as [->|Hne].
    + rewrite lookup_insert_eq.
      destruct (decide (lang_code ∈ lang_code :: rest.*1)) as [_|Hnin]; [done|].
      exfalso. apply Hnin. by left.
    + rewrite lookup_insert_ne by done. rewrite IH.
      destruct (decide (lang_code ∈ rest.*1)) as [Hin|Hnin];
        destruct (decide (lang_code ∈ code :: rest.*1)) as [Hin'|Hnin']; try done.
      * exfalso. apply Hnin'. by right.
      * apply elem_of_cons in Hin' as [?|?]; [congruence|done].
Qed.

Lemma LocalizedValue_of_one_entry_per_language (languages : list (string * string))
    (keys : gmap string pyval) :
  one_entry_per_language languages (LocalizedValue_of languages keys).
Proof.
  intros lang_code. rewrite lookup_LocalizedValue_of.
  case_decide; split; intros H'; done || by destruct H'.
Qed.

Lemma clean_scan_spec (entries : gmap string pyval) (languages : list (string * string)) :
  clean_scan entries languages true = true
  <-> forall lang_code, lang_code ∈ languages.*1 ->
        LocalizedValue_get entries lang_code = PyNone.
Proof.
  induction languages as [|[code label] rest IH]; simpl.
  - split; [|done]. intros _ lang_code Hin. by apply elem_of_nil in Hin.
  - destruct (LocalizedValue_get entries code) eqn:Hget; simpl;
      try (split; [done|]; intros Hall;
           specialize (Hall code (list_elem_of_here _ _)); congruence).
    rewrite IH. split.
    + intros Hall lang_code Hin. apply elem_of_cons in Hin as [->|Hin]; auto.
    + intros Hall lang_code Hin. apply Hall. by right.
Qed.

Lemma foldl_append_map {A B : Type} (f : A -> B) (xs : list A) (acc : list B) :
  foldl (fun result x => result ++ [f x]) acc xs = acc ++ map f xs.
Proof.
  revert acc. induction xs as [|x xs IH]; intros acc; simpl.
  - by rewrite app_nil_r.
  - rewrite IH. by rewrite <- app_assoc.
Qed.

Lemma text_values_unchanged (str_builtin : pyval -> string) (d : gmap string pyval) :
  holds_text d ->
  (fun val => if is_None val then val else PyStr (py_str str_builtin val)) <$> d = d.
Proof.
  intros Htext. apply map_eq. intros k. rewrite lookup_fmap.
  destruct (d !! k) as [x|] eqn:Hk; [|done]. simpl.
  specialize (Htext k x Hk). by destruct x.
Qed.

(** ** Properties of [validate] and [clean] *)

Section Validation.

Variable settings : Settings.

(** C1.  For a [LocalizedValue], [validate] raises [IntegrityError] exactly
    when the field is not nullable and the value's attribute for the primary
    language code is [None]; on a nullable field [validate] returns without
    raising, whatever it is given. *)
Theorem validate_raises_iff (self : LocalizedField) (entries : gmap string pyval) :
  (raises_IntegrityError (validate settings self (PyLocalized entries))
   <-> null self = false
       /\ getattr (PyLocalized entries) (LANGUAGE_CODE settings) = Return PyNone)
  /\ (null self = true ->
      forall value : pyval, validate settings self value = Return tt).
Proof.
  split.
  - unfold raises_IntegrityError, validate, getattr.
    destruct (null self); simpl.
    + split; [intros [msg Hmsg]|intros [Hnull _]]; discriminate.
    + destruct (entries !! LANGUAGE_CODE settings) as [x|] eqn:Hattr; simpl.
      * destruct x; simpl; split;
          try (intros [msg Hmsg]; discriminate);
          try (intros [_ Hx]; discriminate).
        -- by intros _.
        -- intros _. by eexists.
      * split; [intros [msg Hmsg]|intros [_ Hx]]; discriminate.
  - intros Hnull value. unfold validate. by rewrite Hnull.
Qed.

(** C7.  Two [LocalizedValue]s that agree on the attribute for the primary
    language code get the same outcome from [validate] on the same field, so
    one raises exactly when the other does; the other languages play no
    part. *)
Theorem validate_reads_primary_only (self : LocalizedField)
    (entries1 entries2 : gmap string pyval) :
  getattr (PyLocalized entries1) (LANGUAGE_CODE settings)
  = getattr (PyLocalized entries2) (LANGUAGE_CODE settings) ->
  validate settings self (PyLocalized entries1)
  = validate settings self (PyLocalized entries2)
  /\ (raises (validate settings self (PyLocalized entries1))
      <-> raises (validate settings self (PyLocalized entries2)))
  /\ (raises_IntegrityError (validate settings self (PyLocalized entries1))
      <-> raises_IntegrityError (validate settings self (PyLocalized entries2))).
Proof.
  intros Hagree.
  assert (validate settings self (PyLocalized entries1)
          = validate settings self (PyLocalized entries2)) as Heq.
  { unfold validate. by rewrite Hagree. }
  rewrite Heq. tauto.
Qed.

(** C8.  Only [None] counts as absent.  On a nullable field [clean] turns a
    [LocalizedValue] into [None] exactly when every configured language maps
    to [None]; a value in which a configured language maps to the empty
    string is returned as it is; and on a field that is not nullable an empty
    string in the primary language makes [validate] return normally. *)
Theorem clean_validate_empty_string_is_content (self : LocalizedField)
    (entries : gmap string pyval) :
  (null self = true ->
   (clean settings self (PyLocalized entries) = PyNone
    <-> forall lang_code, lang_code ∈ (LANGUAGES settings).*1 ->
          LocalizedValue_get entries lang_code = PyNone))
  /\ (forall lang_code, lang_code ∈ (LANGUAGES settings).*1 ->
        entries !! lang_code = Some (PyStr EmptyString) ->
        clean settings self (PyLocalized entries) = PyLocalized entries)
  /\ (null self = false ->
      entries !! LANGUAGE_CODE settings = Some (PyStr EmptyString) ->
      validate settings self (PyLocalized entries) = Return tt).
Proof.
  split; [|split].
  - intros Hnull. unfold clean. rewrite Hnull, andb_true_r.
    destruct (truthy (PyLocalized entries)) eqn:Htruthy; cbn [negb].
    + destruct (clean_scan entries (LANGUAGES settings) true) eqn:Hscan.
      * split; [intros _|done]. by apply clean_scan_spec.
      * split; [discriminate|]. intros Hall.
        apply clean_scan_spec in Hall. congruence.
    + split; [intros _|done]. intros lang_code _.
      apply truthy_PyLocalized_false in Htruthy as ->.
      apply LocalizedValue_get_None_of_empty.
  - intros lang_code Hin Hentry. unfold clean.
    destruct (truthy (PyLocalized entries)) eqn:Htruthy; cbn [negb].
    + destruct (clean_scan entries (LANGUAGES settings) true) eqn:Hscan; [|done].
      exfalso. assert (LocalizedValue_get entries lang_code = PyNone) as Hget.
      { by eapply clean_scan_spec. }
      unfold LocalizedValue_get in Hget. by rewrite Hentry in Hget.
    + apply truthy_PyLocalized_false in Htruthy as ->.
      by rewrite lookup_empty in Hentry.
  - intros Hnull Hentry. unfold validate, getattr. by rewrite Hnull, Hentry.
Qed.

(** [clean] returns [None] or its argument. *)
Lemma clean_None_or_same (self : LocalizedField) (value : pyval) :
  clean settings self value = PyNone \/ clean settings self value = value.
Proof.
  unfold clean. destruct value; auto.
  destruct (negb _); auto. destruct (_ && _); auto.
Qed.

(** C10.  [clean] is idempotent, and it hands back either [None] or the very
    value it was given: it builds no changed copy of its argument. *)
Theorem clean_idempotent (self : LocalizedField) (value : pyval) :
  clean settings self (clean settings self value) = clean settings self value
  /\ (clean settings self value = PyNone \/ clean settings self value = value).
Proof.
  pose proof (clean_None_or_same self value) as Hcases.
  split; [|done].
  destruct Hcases as [Hnone|Hsame].
  - by rewrite Hnone.
  - by rewrite Hsame.
Qed.

End Validation.

(** ** Properties of the conversions *)

Section Conversion.

Variable settings : Settings.
Variable json_loads : string -> result pyval.
Variable str_builtin : pyval -> string.
Variable LocalizedValue_is_dict : bool.
Variable LocalizedValue_interpret : pyval -> gmap string pyval.

(** What [get_prep_value] does with a [LocalizedValue] once [clean] keeps
    it and [validate] accepts it. *)
Lemma get_prep_value_kept (self : LocalizedField) (entries : gmap string pyval) :
  truthy (PyLocalized entries) = true ->
  clean settings self (PyLocalized entries) = PyLocalized entries ->
  validate settings self (PyLocalized entries) = Return tt ->
  get_prep_value settings str_builtin self (PyLocalized entries)
  = Return (HStoreField_get_prep_value str_builtin (Some entries)).
Proof.
  intros Htruthy Hclean Hvalid. unfold get_prep_value.
  cbn [isinstance_LocalizedValue negb andb].
  rewrite Htruthy, Hclean, Hvalid. cbn [bind]. by rewrite Htruthy.
Qed.

(** Whatever [get_prep_value] returns for a [LocalizedValue] is [None] or
    the prepared form of the value's own entries. *)
Lemma get_prep_value_cases (self : LocalizedField) (entries : gmap string pyval)
    (stored : pyval) :
  get_prep_value settings str_builtin self (PyLocalized entries) = Return stored ->
  stored = PyNone
  \/ stored = HStoreField_get_prep_value str_builtin (Some entries).
Proof.
  unfold get_prep_value. cbn [isinstance_LocalizedValue negb andb].
  destruct (truthy (PyLocalized entries)) eqn:Htruthy.
  - destruct (clean_None_or_same settings self (PyLocalized entries)) as [Hc|Hc];
      rewrite Hc.
    + destruct (validate settings self PyNone); cbn; [|discriminate].
      intros [= <-]. by left.
    + destruct (validate settings self (PyLocalized entries)); cbn [bind];
        [|discriminate].
      rewrite Htruthy. cbn. intros [= <-]. by right.
  - cbn [bind]. rewrite Htruthy. cbn. intros [= <-]. by left.
Qed.

(** A value that is not a [LocalizedValue] is stored as [None], without any
    validation, whether or not the field is nullable. *)
Lemma get_prep_value_not_LocalizedValue (self : LocalizedField) (value : pyval) :
  isinstance_LocalizedValue value = false ->
  get_prep_value settings str_builtin self value = Return PyNone.
Proof.
  intros Hinst. unfold get_prep_value. rewrite Hinst. cbn [negb andb].
  destruct (truthy value) eqn:Htruthy; [reflexivity|].
  rewrite Htruthy. cbn [bind]. by rewrite Htruthy.
Qed.

(** Rebuilding a container from its own entries gives it back, when it has
    one entry per configured language. *)
Lemma LocalizedValue_of_own_entries (entries : gmap string pyval) :
  one_entry_per_language (LANGUAGES settings) entries ->
  LocalizedValue_of (LANGUAGES settings) entries = entries.
Proof.
  intros Hinv. apply map_eq. intros lang_code.
  rewrite lookup_LocalizedValue_of.
  destruct (decide (lang_code ∈ (LANGUAGES settings).*1)) as [Hin|Hnin].
  - apply Hinv in Hin as [x Hx]. by rewrite Hx.
  - destruct (entries !! lang_code) as [x|] eqn:Hx; [|done].
    exfalso. apply Hnin, Hinv. by eexists.
Qed.

(** The containers the field itself builds, [LocalizedValue()] and
    [LocalizedValue(d)] for a dict [d], have one entry per configured
    language. *)
Lemma attr_class_one_entry_per_language (arg : option pyval) :
  arg = None \/ (exists d, arg = Some (PyDict d)) ->
  one_entry_per_language (LANGUAGES settings)
    (attr_class settings LocalizedValue_interpret arg).
Proof.
  intros [->|[d ->]]; apply LocalizedValue_of_one_entry_per_language.
Qed.

(** C3.  Round trip.  Take a [LocalizedValue] with one text entry per
    configured language in which some configured language is not [None],
    and whose primary language is not [None] when the field is not
    nullable.  Preparing it for the database and converting the result back
    with [to_python] gives a [LocalizedValue] with the same mapping. *)
Theorem to_python_get_prep_value (self : LocalizedField) (entries : gmap string pyval) :
  one_entry_per_language (LANGUAGES settings) entries ->
  holds_text entries ->
  (exists lang_code, lang_code ∈ (LANGUAGES settings).*1
                     /\ LocalizedValue_get entries lang_code <> PyNone) ->
  (null self = false ->
   LocalizedValue_get entries (LANGUAGE_CODE settings) <> PyNone) ->
  (stored <- get_prep_value settings str_builtin self (PyLocalized entries) ;;
   to_python settings json_loads LocalizedValue_interpret stored)
  = Return (PyLocalized entries).
Proof.
  intros Hinv Htext (lang_code & Hin & Hsome) Hprimary.
  assert (truthy (PyLocalized entries) = true) as Htruthy.
  { destruct (truthy (PyLocalized entries)) eqn:Ht; [done|].
    apply truthy_PyLocalized_false in Ht as ->.
    by rewrite LocalizedValue_get_None_of_empty in Hsome. }
  assert (clean settings self (PyLocalized entries) = PyLocalized entries) as Hclean.
  { unfold clean. rewrite Htruthy. cbn [negb].
    destruct (clean_scan entries (LANGUAGES settings) true) eqn:Hscan; [|done].
    exfalso. apply Hsome. by eapply clean_scan_spec. }
  assert (validate settings self (PyLocalized entries) = Return tt) as Hvalid.
  { unfold validate, getattr. destruct (null self) eqn:Hnull; [done|].
    specialize (Hprimary eq_refl). unfold LocalizedValue_get in Hprimary.
    destruct (entries !! LANGUAGE_CODE settings) as [x|]; [|done].
    by destruct x. }
  rewrite (get_prep_value_kept self entries Htruthy Hclean Hvalid).
  cbn [bind HStoreField_get_prep_value].
  rewrite (text_values_unchanged str_builtin entries Htext).
  unfold to_python. cbn [HStoreField_to_python try_except_JSONDecodeError bind].
  change (truthy (PyDict entries)) with (truthy (PyLocalized entries)).
  rewrite Htruthy. cbn [negb attr_class].
  by rewrite LocalizedValue_of_own_entries.
Qed.

(** C6.  When [get_prep_value] serializes a [LocalizedValue] that has one
    entry per configured language, the dictionary it hands to the database
    layer has a key for every configured language. *)
Theorem get_prep_value_key_per_language (self : LocalizedField)
    (entries d : gmap string pyval) :
  one_entry_per_language (LANGUAGES settings) entries ->
  get_prep_value settings str_builtin self (PyLocalized entries) = Return (PyDict d) ->
  forall lang_code, lang_code ∈ (LANGUAGES settings).*1 -> is_Some (d !! lang_code).
Proof.
  intros Hinv Hprep lang_code Hin.
  apply get_prep_value_cases in Hprep as [Hnone|Hdict]; [discriminate|].
  cbn [HStoreField_get_prep_value] in Hdict. injection Hdict as ->.
  rewrite lookup_fmap. apply fmap_is_Some. by apply Hinv.
Qed.

(** C4 (amended).  [to_python] returns a [LocalizedValue] whenever the base
    class's deserialization returns a value or fails with a JSON decoding
    error, which is the case for every input that is not a string: the
    attempted deserialization yields a value (the input itself when decoding
    fails that way), the decoding error does not escape, and the result is
    the empty container when that value is falsy and the container built
    from it otherwise.  The empty container maps every language to
    [None]. *)
Theorem to_python_returns_LocalizedValue (value : pyval) :
  (forall e, HStoreField_to_python json_loads value = Raise e -> e = JSONDecodeError) ->
  exists deserialized_value,
    try_except_JSONDecodeError (HStoreField_to_python json_loads value) (Return value)
    = Return deserialized_value
    /\ to_python settings json_loads LocalizedValue_interpret value
       = Return (PyLocalized
           (if truthy deserialized_value
            then attr_class settings LocalizedValue_interpret (Some deserialized_value)
            else attr_class settings LocalizedValue_interpret None))
    /\ (forall lang_code,
         LocalizedValue_get (attr_class settings LocalizedValue_interpret None) lang_code
         = PyNone).
Proof.
  intros Hdecoding.
  assert (exists deserialized_value,
    try_except_JSONDecodeError (HStoreField_to_python json_loads value) (Return value)
    = Return deserialized_value) as [deserialized_value Hdes].
  { destruct (HStoreField_to_python json_loads value) as [decoded|e] eqn:Hbase.
    - by exists decoded.
    - rewrite (Hdecoding e eq_refl). by exists value. }
  exists deserialized_value. split; [done|]. split.
  - unfold to_python. rewrite Hdes. cbn [bind].
    by destruct (truthy deserialized_value).
  - intros lang_code. unfold LocalizedValue_get. cbn [attr_class].
    rewrite lookup_LocalizedValue_of, lookup_empty.
    by destruct (decide _).
Qed.

(** C5 (amended).  For a falsy database value [from_db_value] returns a
    newly built empty [LocalizedValue], one entry per configured language
    and each of them [None], unless the setting
    [LOCALIZED_FIELDS_EXPERIMENTAL] is truthy: then it returns [None]. *)
Theorem from_db_value_falsy (value : pyval) :
  truthy value = false ->
  from_db_value settings LocalizedValue_is_dict LocalizedValue_interpret value
  = (if truthy (default (PyBool false) (LOCALIZED_FIELDS_EXPERIMENTAL settings))
     then PyNone
     else PyLocalized (attr_class settings LocalizedValue_interpret None))
  /\ one_entry_per_language (LANGUAGES settings)
       (attr_class settings LocalizedValue_interpret None)
  /\ (forall lang_code,
       LocalizedValue_get (attr_class settings LocalizedValue_interpret None) lang_code
       = PyNone).
Proof.
  intros Hfalsy. split; [|split].
  - unfold from_db_value. by rewrite Hfalsy.
  - apply LocalizedValue_of_one_entry_per_language.
  - intros lang_code. unfold LocalizedValue_get. cbn [attr_class].
    rewrite lookup_LocalizedValue_of, lookup_empty.
    by destruct (decide _).
Qed.

(** C9 (amended).  A truthy database value that is neither a dict nor a
    list is returned as it is.  A list that is not empty becomes a list of
    the same length and order, in which every dict element is wrapped in a
    [LocalizedValue] and every other element, [None] included, is kept. *)
Theorem from_db_value_truthy :
  (forall value : pyval,
     truthy value = true ->
     isinstance_dict LocalizedValue_is_dict value = false ->
     isinstance_list value = false ->
     from_db_value settings LocalizedValue_is_dict LocalizedValue_interpret value
     = value)
  /\ (forall xs : list pyval,
       xs <> [] ->
       exists ys : list pyval,
         from_db_value settings LocalizedValue_is_dict LocalizedValue_interpret (PyList xs)
         = PyList ys
         /\ length ys = length xs
         /\ forall (i : nat) (x : pyval),
              xs !! i = Some x ->
              ys !! i
              = Some (if isinstance_dict LocalizedValue_is_dict x
                      then PyLocalized
                             (attr_class settings LocalizedValue_interpret (Some x))
                      else x)).
Proof.
  split.
  - intros value Htruthy Hdict Hlist. unfold from_db_value.
    rewrite Htruthy, Hdict. cbn [negb]. by destruct value.
  - intros xs Hne.
    exists (map (from_db_value_inner settings LocalizedValue_is_dict
                   LocalizedValue_interpret) xs).
    split; [|split].
    + unfold from_db_value.
      assert (truthy (PyList xs) = true) as -> by (by destruct xs).
      cbn [negb]. by rewrite foldl_append_map.
    + apply length_map.
    + intros i x Hi. rewrite list_lookup_fmap, Hi. cbn [fmap option_fmap option_map].
      f_equal. unfold from_db_value_inner.
      destruct (isinstance_dict LocalizedValue_is_dict x) eqn:Hdict; [|done].
      by destruct x.
Qed.

End Conversion.

(** ** The properties at concrete inputs *)

Lemma hello_value_one_entry_per_language :
  one_entry_per_language (LANGUAGES project_settings) hello_value.
Proof.
  replace hello_value
    with (LocalizedValue_of (LANGUAGES project_settings) hello_value)
    by (vm_compute; reflexivity).
  apply LocalizedValue_of_one_entry_per_language.
Qed.

Lemma hello_value_holds_text : holds_text hello_value.
Proof.
  change (map_Forall (fun (_ : string) x => text_or_null x = true) hello_value).
  apply (bool_decide_unpack _). vm_compute. exact I.
Qed.

(** C2.  On a field that is not nullable, [get_prep_value] given a truthy
    value that is not a [LocalizedValue] (a string, a plain dict) raises
    nothing and passes [None] on for storage: the validation that the
    method's documentation announces for such a value does not run. *)
Theorem get_prep_value_illegal_value_unvalidated :
  null required_field = false
  /\ get_prep_value project_settings sample_str required_field (PyStr "hello")
     = Return PyNone
  /\ get_prep_value project_settings sample_str required_field
       (PyDict (<["ro" := PyStr "salut"]> ∅))
     = Return PyNone
  /\ validate project_settings required_field
       (PyLocalized (LocalizedValue_of (LANGUAGES project_settings) ∅))
     = Raise (IntegrityError
         (not_null_message (name required_field) (LANGUAGE_CODE project_settings))).
Proof. repeat split; vm_compute; reflexivity. Qed.

(** C5, as stated, fails when the experimental setting is on: the falsy
    database value [None] comes back as [None], not as a [LocalizedValue]. *)
Lemma from_db_value_experimental_returns_None :
  truthy PyNone = false
  /\ from_db_value experimental_settings false sample_interpret PyNone = PyNone
  /\ isinstance_LocalizedValue
       (from_db_value experimental_settings false sample_interpret PyNone)
     = false.
Proof. repeat split; vm_compute; reflexivity. Qed.

(** C9, as stated, fails on the empty list: it is falsy, so what comes back
    is the empty [LocalizedValue] and not a list. *)
Lemma from_db_value_empty_list_not_a_list :
  from_db_value project_settings false sample_interpret (PyList [])
  = PyLocalized (LocalizedValue_of (LANGUAGES project_settings) ∅)
  /\ isinstance_list
       (from_db_value project_settings false sample_interpret (PyList []))
     = false.
Proof. split; vm_compute; reflexivity. Qed.

Lemma validate_raises_iff_witness :
  raises_IntegrityError
    (validate project_settings required_field
       (PyLocalized (<["en" := PyNone]> hello_value)))
  /\ validate project_settings nullable_field
       (PyLocalized (<["en" := PyNone]> hello_value))
     = Return tt.
Proof.
  split.
  - apply (validate_raises_iff project_settings required_field). split.
    + reflexivity.
    + vm_compute. reflexivity.
  - apply (validate_raises_iff project_settings nullable_field ∅). reflexivity.
Defined.

Lemma validate_reads_primary_only_witness :
  hello_value <> hello_value'
  /\ validate project_settings required_field (PyLocalized hello_value)
     = validate project_settings required_field (PyLocalized hello_value').
Proof.
  split.
  - intros Heq. apply (f_equal (fun m : gmap string pyval => m !! "ro")) in Heq.
    vm_compute in Heq. discriminate.
  - apply (validate_reads_primary_only project_settings required_field
             hello_value hello_value').
    vm_compute. reflexivity.
Defined.

Lemma clean_validate_empty_string_is_content_witness :
  clean project_settings nullable_field
    (PyLocalized (LocalizedValue_of (LANGUAGES project_settings) ∅)) = PyNone
  /\ clean project_settings nullable_field (PyLocalized hello_value)
     = PyLocalized hello_value
  /\ validate project_settings required_field
       (PyLocalized (<["en" := PyStr EmptyString]> hello_value))
     = Return tt.
Proof.
  split; [|split].
  - apply (clean_validate_empty_string_is_content project_settings nullable_field).
    + reflexivity.
    + intros lang_code _. unfold LocalizedValue_get.
      rewrite lookup_LocalizedValue_of, lookup_empty. by destruct (decide _).
  - apply (clean_validate_empty_string_is_content project_settings nullable_field
             hello_value) with (lang_code := "nl").
    + vm_compute. do 2 right. left.
    + vm_compute. reflexivity.
  - apply (clean_validate_empty_string_is_content project_settings required_field).
    + reflexivity.
    + vm_compute. reflexivity.
Defined.

Lemma to_python_get_prep_value_witness :
  (stored <- get_prep_value project_settings sample_str required_field
               (PyLocalized hello_value) ;;
   to_python project_settings sample_json_loads sample_interpret stored)
  = Return (PyLocalized hello_value).
Proof.
  apply to_python_get_prep_value.
  - apply hello_value_one_entry_per_language.
  - apply hello_value_holds_text.
  - exists "en". split.
    + left.
    + vm_compute. discriminate.
  - intros _. vm_compute. discriminate.
Defined.

Lemma get_prep_value_key_per_language_witness :
  is_Some (hello_value !! "en") /\ is_Some (hello_value !! "ro")
  /\ is_Some (hello_value !! "nl").
Proof.
  assert (forall lang_code, lang_code ∈ (LANGUAGES project_settings).*1 ->
            is_Some (hello_value !! lang_code)) as Hkeys.
  { apply (get_prep_value_key_per_language project_settings sample_str
             required_field hello_value hello_value).
    - apply hello_value_one_entry_per_language.
    - vm_compute. reflexivity. }
  split; [|split]; apply Hkeys; vm_compute.
  - left.
  - right. left.
  - do 2 right. left.
Defined.

Lemma from_db_value_falsy_witness :
  from_db_value project_settings false sample_interpret (PyStr EmptyString)
  = PyLocalized (LocalizedValue_of (LANGUAGES project_settings) ∅)
  /\ from_db_value experimental_settings false sample_interpret (PyDict ∅)
     = PyNone.
Proof.
  split.
  - apply (from_db_value_falsy project_settings false sample_interpret
             (PyStr EmptyString)).
    reflexivity.
  - apply (from_db_value_falsy experimental_settings false sample_interpret
             (PyDict ∅)).
    reflexivity.
Defined.

Lemma from_db_value_truthy_witness :
  from_db_value project_settings false sample_interpret (PyStr "hello")
  = PyStr "hello"
  /\ exists ys,
       from_db_value project_settings false sample_interpret
         (PyList [PyDict hello_value; PyNone; PyStr "x"])
       = PyList ys
       /\ length ys = 3
       /\ ys !! 0 = Some (PyLocalized hello_value)
       /\ ys !! 1 = Some PyNone.
Proof.
  destruct (from_db_value_truthy project_settings false sample_interpret)
    as [Hflat Hlist].
  split.
  - apply Hflat; reflexivity.
  - destruct (Hlist [PyDict hello_value; PyNone; PyStr "x"]) as (ys & Hys & Hlen & Hnth).
    + discriminate.
    + exists ys. split; [exact Hys|]. split; [exact Hlen|]. split.
      * rewrite (Hnth 0 (PyDict hello_value) eq_refl). vm_compute. reflexivity.
      * rewrite (Hnth 1 PyNone eq_refl). reflexivity.
Defined.

(** ** Further properties of the field's methods *)

Section Storage.

Variable settings : Settings.
Variable str_builtin : pyval -> string.

(** X1.  [clean] returns [None] for a [LocalizedValue] in two cases only:
    the value has no entry at all, or the field is nullable and every
    configured language is [None].  On a field that is not nullable a value
    with entries is always kept. *)
Theorem clean_None_iff (self : LocalizedField) (entries : gmap string pyval) :
  clean settings self (PyLocalized entries) = PyNone
  <-> entries = ∅
      \/ (null self = true
          /\ forall lang_code, lang_code ∈ (LANGUAGES settings).*1 ->
               LocalizedValue_get entries lang_code = PyNone).
Proof.
  unfold clean.
  destruct (truthy (PyLocalized entries)) eqn:Htruthy; cbn [negb].
  - assert (entries <> ∅) as Hne.
    { intros ->. by vm_compute in Htruthy. }
    destruct (clean_scan entries (LANGUAGES settings) true) eqn:Hscan;
      destruct (null self); cbn [andb]; split;
      try discriminate; try (intros [?|[? ?]]; done); try (intros _; right).
    + split; [done|]. by apply clean_scan_spec.
    + intros [?|[_ Hall]]; [done|].
      apply clean_scan_spec in Hall. congruence.
  - split; [intros _|done]. left. by apply truthy_PyLocalized_false.
Qed.

(** X2.  [validate] accepts a [LocalizedValue] exactly when the field is
    nullable or the value has a primary-language attribute that is not
    [None]; what that attribute is otherwise (an empty string, a value that
    is no text) does not matter. *)
Theorem validate_accepts_iff (self : LocalizedField) (entries : gmap string pyval) :
  validate settings self (PyLocalized entries) = Return tt
  <-> null self = true
      \/ exists x, entries !! LANGUAGE_CODE settings = Some x /\ x <> PyNone.
Proof.
  unfold validate, getattr. destruct (null self).
  - split; [by left|done].
  - destruct (entries !! LANGUAGE_CODE settings) as [x|]; cbn [bind].
    + destruct (is_None x) eqn:Hx.
      * destruct x; try discriminate.
        split; [discriminate|]. by intros [?|(? & [= <-] & ?)].
      * split; [intros _|done]. right. exists x. split; [done|].
        intros ->. discriminate.
    + split; [discriminate|]. by intros [?|(? & ? & ?)].
Qed.

(** X3.  On a nullable field [get_prep_value] never raises, whatever it is
    given: it returns [None] or a dictionary. *)
Theorem get_prep_value_nullable_returns (self : LocalizedField) (value : pyval) :
  null self = true ->
  exists stored,
    get_prep_value settings str_builtin self value = Return stored
    /\ (stored = PyNone \/ exists d, stored = PyDict d).
Proof.
  intros Hnull.
  destruct (isinstance_LocalizedValue value) eqn:Hinst.
  - destruct value; try discriminate.
    unfold get_prep_value. cbn [isinstance_LocalizedValue negb andb].
    destruct (truthy (PyLocalized entries)) eqn:Htruthy.
    + assert (forall v, validate settings self v = Return tt) as Hvalid.
      { intros v. unfold validate. by rewrite Hnull. }
      rewrite Hvalid. cbn [bind].
      destruct (clean_None_or_same settings self (PyLocalized entries)) as [Hc|Hc];
        rewrite Hc.
      * eexists. split; [reflexivity|]. by left.
      * rewrite Htruthy. eexists. split; [reflexivity|]. right. by eexists.
    + cbn [bind]. rewrite Htruthy. eexists. split; [reflexivity|]. by left.
  - exists PyNone. split; [|by left].
    by apply get_prep_value_not_LocalizedValue.
Qed.

(** X4.  On a nullable field a [LocalizedValue] is stored as [None] exactly
    when every configured language is [None]: empty keys are not stored. *)
Theorem get_prep_value_nullable_None_iff (self : LocalizedField)
    (entries : gmap string pyval) :
  null self = true ->
  get_prep_value settings str_builtin self (PyLocalized entries) = Return PyNone
  <-> forall lang_code, lang_code ∈ (LANGUAGES settings).*1 ->
        LocalizedValue_get entries lang_code = PyNone.
Proof.
  intros Hnull.
  assert (forall v, validate settings self v = Return tt) as Hvalid.
  { intros v. unfold validate. by rewrite Hnull. }
  unfold get_prep_value. cbn [isinstance_LocalizedValue negb andb].
  destruct (truthy (PyLocalized entries)) eqn:Htruthy.
  - rewrite Hvalid. cbn [bind]. unfold clean. rewrite Htruthy, Hnull, andb_true_r.
    cbn [negb].
    destruct (clean_scan entries (LANGUAGES settings) true) eqn:Hscan.
    + split; [intros _|done]. by apply clean_scan_spec.
    + rewrite Htruthy. cbn. split; [discriminate|].
      intros Hall. apply clean_scan_spec in Hall. congruence.
  - cbn [bind]. rewrite Htruthy. split; [intros _|done].
    apply truthy_PyLocalized_false in Htruthy as ->.
    intros lang_code _. apply LocalizedValue_get_None_of_empty.
Qed.

(** X5.  On a field that is not nullable, [get_prep_value] refuses a
    [LocalizedValue] whose primary language is [None]: it raises
    [IntegrityError], and the message names the field and the language. *)
Theorem get_prep_value_required_rejects (self : LocalizedField)
    (entries : gmap string pyval) :
  null self = false ->
  entries !! LANGUAGE_CODE settings = Some PyNone ->
  get_prep_value settings str_builtin self (PyLocalized entries)
  = Raise (IntegrityError
      (not_null_message (name self) (LANGUAGE_CODE settings))).
Proof.
  intros Hnull Hprimary.
  assert (truthy (PyLocalized entries) = true) as Htruthy.
  { destruct (truthy (PyLocalized entries)) eqn:Ht; [done|].
    apply truthy_PyLocalized_false in Ht as ->. by rewrite lookup_empty in Hprimary. }
  unfold get_prep_value. cbn [isinstance_LocalizedValue negb andb].
  rewrite Htruthy. unfold clean. rewrite Htruthy, Hnull, andb_false_r. cbn [negb].
  unfold validate, getattr. by rewrite Hnull, Hprimary.
Qed.

(** X6.  On a field that is not nullable, a dictionary that
    [get_prep_value] returns for a [LocalizedValue] has, under the primary
    language, the string of a value that was not [None]. *)
Theorem get_prep_value_required_primary (self : LocalizedField)
    (entries d : gmap string pyval) :
  null self = false ->
  get_prep_value settings str_builtin self (PyLocalized entries) = Return (PyDict d) ->
  exists x,
    entries !! LANGUAGE_CODE settings = Some x
    /\ x <> PyNone
    /\ d !! LANGUAGE_CODE settings = Some (PyStr (py_str str_builtin x)).
Proof.
  intros Hnull. unfold get_prep_value.
  cbn [isinstance_LocalizedValue negb andb].
  destruct (truthy (PyLocalized entries)) eqn:Htruthy.
  - unfold clean. rewrite Htruthy, Hnull, andb_false_r. cbn [negb].
    destruct (validate settings self (PyLocalized entries)) as [[]|e] eqn:Hvalid;
      cbn [bind]; [|discriminate].
    rewrite Htruthy. cbn. intros [= <-].
    unfold validate, getattr in Hvalid. rewrite Hnull in Hvalid.
    destruct (entries !! LANGUAGE_CODE settings) as [x|] eqn:Hx; [|discriminate].
    cbn [bind] in Hvalid.
    exists x. split; [done|]. rewrite lookup_fmap, Hx.
    destruct x; try discriminate; by split.
  - cbn [bind]. rewrite Htruthy. cbn. discriminate.
Qed.

End Storage.

Section Reading.

Variable settings : Settings.
Variable json_loads : string -> result pyval.
Variable str_builtin : pyval -> string.
Variable LocalizedValue_is_dict : bool.
Variable LocalizedValue_interpret : pyval -> gmap string pyval.

(** X7.  [from_db_value] returns [None] in one case only: the database
    value is falsy and the setting [LOCALIZED_FIELDS_EXPERIMENTAL] is
    truthy.  Without that setting it never returns [None]. *)
Theorem from_db_value_None_iff (value : pyval) :
  from_db_value settings LocalizedValue_is_dict LocalizedValue_interpret value = PyNone
  <-> truthy value = false
      /\ truthy (default (PyBool false) (LOCALIZED_FIELDS_EXPERIMENTAL settings)) = true.
Proof.
  unfold from_db_value.
  destruct (truthy value) eqn:Htruthy; cbn [negb].
  - split; [|by intros [? _]].
    destruct value; cbn [isinstance_dict negb]; try discriminate.
    destruct LocalizedValue_is_dict; discriminate.
  - destruct (truthy (default (PyBool false) (LOCALIZED_FIELDS_EXPERIMENTAL settings)));
      split; try done. by intros [_ ?].
Qed.

(** X8.  A string that decodes as JSON is converted as the value it
    encodes, provided that value is not itself a string (a decoded string is
    not decoded a second time). *)
Theorem to_python_json_string (s : string) (decoded : pyval) :
  json_loads s = Return decoded ->
  (forall s', decoded <> PyStr s') ->
  to_python settings json_loads LocalizedValue_interpret (PyStr s)
  = to_python settings json_loads LocalizedValue_interpret decoded.
Proof.
  intros Hjson Hnotstr. unfold to_python, HStoreField_to_python. rewrite Hjson.
  destruct decoded; try reflexivity. by destruct (Hnotstr s0).
Qed.

(** X9.  [to_python] and [from_db_value] agree on every value that is not
    a string and is falsy or a dict, as long as the experimental setting is
    off: both give the empty container for the falsy ones and the container
    built from the dict for the others. *)
Theorem to_python_agrees_with_from_db_value (value : pyval) :
  truthy (default (PyBool false) (LOCALIZED_FIELDS_EXPERIMENTAL settings)) = false ->
  (forall s, value <> PyStr s) ->
  truthy value = false \/ isinstance_dict LocalizedValue_is_dict value = true ->
  to_python settings json_loads LocalizedValue_interpret value
  = Return (from_db_value settings LocalizedValue_is_dict LocalizedValue_interpret value).
Proof.
  intros Hexp Hnotstr Hcases.
  assert (try_except_JSONDecodeError (HStoreField_to_python json_loads value)
            (Return value) = Return value) as Hdes.
  { destruct value; try reflexivity. by destruct (Hnotstr s). }
  unfold to_python, from_db_value. rewrite Hdes, Hexp. cbn [bind].
  destruct (truthy value) eqn:Htruthy; cbn [negb]; [|done].
  destruct Hcases as [?|Hdict]; [done|].
  rewrite Hdict. cbn [negb]. by destruct value.
Qed.

(** X10.  Round trip from the database and back.  A stored dictionary with
    one text entry per configured language, some configured language not
    [None], and the primary language not [None] when the field is not
    nullable, is read by [from_db_value] and prepared again by
    [get_prep_value] as the same dictionary. *)
Theorem get_prep_value_from_db_value (self : LocalizedField) (d : gmap string pyval) :
  one_entry_per_language (LANGUAGES settings) d ->
  holds_text d ->
  (exists lang_code, lang_code ∈ (LANGUAGES settings).*1
                     /\ LocalizedValue_get d lang_code <> PyNone) ->
  (null self = false -> LocalizedValue_get d (LANGUAGE_CODE settings) <> PyNone) ->
  get_prep_value settings str_builtin self
    (from_db_value settings LocalizedValue_is_dict LocalizedValue_interpret (PyDict d))
  = Return (PyDict d).
Proof.
  intros Hinv Htext (lang_code & Hin & Hsome) Hprimary.
  assert (truthy (PyLocalized d) = true) as Htruthy.
  { destruct (truthy (PyLocalized d)) eqn:Ht; [done|].
    apply truthy_PyLocalized_false in Ht as ->.
    by rewrite LocalizedValue_get_None_of_empty in Hsome. }
  assert (from_db_value settings LocalizedValue_is_dict LocalizedValue_interpret (PyDict d)
          = PyLocalized d) as ->.
  { unfold from_db_value.
    change (truthy (PyDict d)) with (truthy (PyLocalized d)). rewrite Htruthy.
    cbn [negb isinstance_dict attr_class].
    by rewrite LocalizedValue_of_own_entries. }
  rewrite get_prep_value_kept; [|done| |].
  - cbn [HStoreField_get_prep_value]. by rewrite text_values_unchanged.
  - unfold clean. rewrite Htruthy. cbn [negb].
    destruct (clean_scan d (LANGUAGES settings) true) eqn:Hscan; [|done].
    exfalso. apply Hsome. by eapply clean_scan_spec.
  - unfold validate, getattr. destruct (null self) eqn:Hnull; [done|].
    specialize (Hprimary eq_refl). unfold LocalizedValue_get in Hprimary.
    destruct (d !! LANGUAGE_CODE settings) as [x|]; [|done]. by destruct x.
Qed.

(** X11.  A value that was never filled in cannot be saved on a field that
    is not nullable.  With the experimental setting off and the primary
    language among the configured ones, what [from_db_value] gives for a
    falsy database value is stored as [None] on a nullable field and
    raises [IntegrityError] in [get_prep_value] on any other field. *)
Theorem get_prep_value_of_blank (self : LocalizedField) (value : pyval) :
  truthy value = false ->
  truthy (default (PyBool false) (LOCALIZED_FIELDS_EXPERIMENTAL settings)) = false ->
  LANGUAGE_CODE settings ∈ (LANGUAGES settings).*1 ->
  get_prep_value settings str_builtin self
    (from_db_value settings LocalizedValue_is_dict LocalizedValue_interpret value)
  = if null self then Return PyNone
    else Raise (IntegrityError
           (not_null_message (name self) (LANGUAGE_CODE settings))).
Proof.
  intros Hfalsy Hexp Hprimary.
  unfold from_db_value. rewrite Hfalsy, Hexp. cbn [negb attr_class].
  set (blank := LocalizedValue_of (LANGUAGES settings) ∅).
  assert (forall lang_code, LocalizedValue_get blank lang_code = PyNone) as Hblank.
  { intros lang_code. unfold LocalizedValue_get, blank.
    rewrite lookup_LocalizedValue_of, lookup_empty. by destruct (decide _). }
  assert (blank !! LANGUAGE_CODE settings = Some PyNone) as Hentry.
  { unfold blank. rewrite lookup_LocalizedValue_of, lookup_empty.
    by destruct (decide _). }
  assert (truthy (PyLocalized blank) = true) as Htruthy.
  { destruct (truthy (PyLocalized blank)) eqn:Ht; [done|].
    apply truthy_PyLocalized_false in Ht. rewrite Ht in Hentry.
    by rewrite lookup_empty in Hentry. }
  assert (clean_scan blank (LANGUAGES settings) true = true) as Hscan.
  { apply clean_scan_spec. intros lang_code _. apply Hblank. }
  unfold get_prep_value. cbn [isinstance_LocalizedValue negb andb].
  rewrite Htruthy. unfold clean. rewrite Htruthy, Hscan. cbn [negb andb].
  unfold validate, getattr. destruct (null self); [done|].
  by rewrite Hentry.
Qed.

End Reading.

Section Forms.

Context {V R : Type}.
Variable LocalizedFieldForm : V.
Variable HStoreField_formfield : gmap string V -> R.

(** X12.  [formfield] calls the base class with the caller's keyword
    arguments, to which [form_class] is added as [LocalizedFieldForm] when
    the caller gave none; a [form_class] given by the caller takes
    precedence, and no other argument is touched. *)
Theorem formfield_form_class (kwargs : gmap string V) :
  formfield LocalizedFieldForm HStoreField_formfield kwargs
  = HStoreField_formfield
      (<["form_class" := default LocalizedFieldForm (kwargs !! "form_class")]> kwargs).
Proof.
  unfold formfield, formfield_defaults, dict_update. f_equal.
  apply map_eq. intros key.
  destruct (decide (key = "form_class")) as [->|Hne].
  - rewrite lookup_insert_eq.
    destruct (kwargs !! "form_class") as [given|] eqn:Hgiven.
    + by erewrite lookup_union_Some_l.
    + rewrite lookup_union_r by done. by rewrite lookup_singleton_eq.
  - rewrite lookup_insert_ne by done.
    destruct (kwargs !! key) as [x|] eqn:Hkey.
    + by erewrite lookup_union_Some_l.
    + rewrite lookup_union_r by done. by rewrite lookup_singleton_ne.
Qed.

End Forms.

(** X13.  A list in which no element is a dict, the flattened result of an
    aggregation over a single key, comes back from [from_db_value] as the
    same list. *)
Theorem from_db_value_flat_list (settings : Settings) (LocalizedValue_is_dict : bool)
    (LocalizedValue_interpret : pyval -> gmap string pyval) (xs : list pyval) :
  xs <> [] ->
  Forall (fun x => isinstance_dict LocalizedValue_is_dict x = false) xs ->
  from_db_value settings LocalizedValue_is_dict LocalizedValue_interpret (PyList xs)
  = PyList xs.
Proof.
  intros Hne Hflat. unfold from_db_value.
  assert (truthy (PyList xs) = true) as -> by (by destruct xs).
  cbn [negb]. rewrite foldl_append_map. cbn [app]. f_equal.
  clear Hne. induction Hflat as [|x rest Hx _ IH]; [done|].
  cbn [map]. rewrite IH. f_equal. unfold from_db_value_inner. by rewrite Hx.
Qed.

(** ** The further properties at concrete inputs *)

Lemma get_prep_value_nullable_returns_witness :
  exists stored,
    get_prep_value project_settings sample_str nullable_field (PyInt 7)
    = Return stored
    /\ (stored = PyNone \/ exists d, stored = PyDict d).
Proof.
  apply (get_prep_value_nullable_returns project_settings sample_str
           nullable_field (PyInt 7)).
  reflexivity.
Defined.

Lemma get_prep_value_nullable_None_iff_witness :
  get_prep_value project_settings sample_str nullable_field
    (PyLocalized (<["en" := PyNone]> (<["ro" := PyNone]> (<["nl" := PyNone]> ∅))))
  = Return PyNone.
Proof.
  apply (get_prep_value_nullable_None_iff project_settings sample_str nullable_field).
  - reflexivity.
  - intros lang_code Hin. vm_compute in Hin.
    repeat (apply elem_of_cons in Hin as [->|Hin]; [by vm_compute|]).
    by apply elem_of_nil in Hin.
Defined.

Lemma get_prep_value_required_rejects_witness :
  get_prep_value project_settings sample_str required_field
    (PyLocalized (<["en" := PyNone]> hello_value))
  = Raise (IntegrityError
      (not_null_message "title" "en")).
Proof.
  apply (get_prep_value_required_rejects project_settings sample_str required_field).
  - reflexivity.
  - vm_compute. reflexivity.
Defined.

Lemma get_prep_value_required_primary_witness :
  exists x,
    hello_value !! "en" = Some x /\ x <> PyNone
    /\ hello_value !! "en" = Some (PyStr (py_str sample_str x)).
Proof.
  apply (get_prep_value_required_primary project_settings sample_str required_field
           hello_value hello_value).
  - reflexivity.
  - vm_compute. reflexivity.
Defined.

Lemma to_python_json_string_witness :
  to_python project_settings sample_json_loads sample_interpret (PyStr "{}")
  = to_python project_settings sample_json_loads sample_interpret (PyDict ∅).
Proof.
  apply to_python_json_string.
  - vm_compute. reflexivity.
  - discriminate.
Defined.

Lemma to_python_agrees_with_from_db_value_witness :
  to_python project_settings sample_json_loads sample_interpret (PyDict hello_value)
  = Return (from_db_value project_settings false sample_interpret (PyDict hello_value)).
Proof.
  apply to_python_agrees_with_from_db_value.
  - reflexivity.
  - discriminate.
  - right. reflexivity.
Defined.

Lemma get_prep_value_from_db_value_witness :
  get_prep_value project_settings sample_str required_field
    (from_db_value project_settings false sample_interpret (PyDict hello_value))
  = Return (PyDict hello_value).
Proof.
  apply get_prep_value_from_db_value.
  - apply hello_value_one_entry_per_language.
  - apply hello_value_holds_text.
  - exists "en". split.
    + left.
    + vm_compute. discriminate.
  - intros _. vm_compute. discriminate.
Defined.

Lemma get_prep_value_of_blank_witness :
  get_prep_value project_settings sample_str required_field
    (from_db_value project_settings false sample_interpret PyNone)
  = Raise (IntegrityError (not_null_message "title" "en"))
  /\ get_prep_value project_settings sample_str nullable_field
       (from_db_value project_settings false sample_interpret (PyList []))
     = Return PyNone.
Proof.
  split.
  - apply (get_prep_value_of_blank project_settings sample_str false sample_interpret
             required_field PyNone).
    + reflexivity.
    + reflexivity.
    + vm_compute. left.
  - apply (get_prep_value_of_blank project_settings sample_str false sample_interpret
             nullable_field (PyList [])).
    + reflexivity.
    + reflexivity.
    + vm_compute. left.
Defined.

Lemma from_db_value_flat_list_witness :
  from_db_value project_settings false sample_interpret
    (PyList [PyStr "hello"; PyNone; PyStr "hallo"])
  = PyList [PyStr "hello"; PyNone; PyStr "hallo"].
Proof.
  apply from_db_value_flat_list.
  - discriminate.
  - repeat constructor.
Defined.

(** X14.  An exception of the decoder other than [JSONDecodeError] is not
    caught by [to_python]: it reaches the caller. *)
Theorem to_python_propagates (settings : Settings) (json_loads : string -> result pyval)
    (LocalizedValue_interpret : pyval -> gmap string pyval) (s : string) (e : exn) :
  json_loads s = Raise e ->
  e <> JSONDecodeError ->
  to_python settings json_loads LocalizedValue_interpret (PyStr s) = Raise e.
Proof.
  intros Hjson Hother. unfold to_python, HStoreField_to_python. rewrite Hjson.
  by destruct e.
Qed.

(** C4, as stated, fails on a string that is a deeply nested document,
    ['[' * 100000]: the decoder raises [RecursionError], which the handler
    for [JSONDecodeError] does not catch, so no [LocalizedValue] is
    returned. *)
Lemma to_python_deep_nesting_raises :
  nesting_json_loads (open_brackets 100000) = Raise RecursionError
  /\ to_python project_settings nesting_json_loads sample_interpret
       (PyStr (open_brackets 100000))
     = Raise RecursionError.
Proof. split; vm_compute; reflexivity. Qed.

Lemma to_python_returns_LocalizedValue_witness :
  (exists deserialized_value,
     try_except_JSONDecodeError
       (HStoreField_to_python nesting_json_loads (PyStr "hello"))
       (Return (PyStr "hello"))
     = Return deserialized_value
     /\ to_python project_settings nesting_json_loads sample_interpret (PyStr "hello")
        = Return (PyLocalized
            (if truthy deserialized_value
             then attr_class project_settings sample_interpret (Some deserialized_value)
             else attr_class project_settings sample_interpret None))
     /\ (forall lang_code,
          LocalizedValue_get (attr_class project_settings sample_interpret None) lang_code
          = PyNone))
  /\ to_python project_settings nesting_json_loads sample_interpret (PyStr "hello")
     = Return (PyLocalized (sample_interpret (PyStr "hello"))).
Proof.
  assert (forall e,
            HStoreField_to_python nesting_json_loads (PyStr "hello") = Raise e ->
            e = JSONDecodeError) as Hdecoding.
  { intros e He. vm_compute in He. by injection He as <-. }
  split.
  - exact (to_python_returns_LocalizedValue project_settings nesting_json_loads
             sample_interpret (PyStr "hello") Hdecoding).
  - vm_compute. reflexivity.
Defined.

Lemma to_python_propagates_witness :
  to_python project_settings nesting_json_loads sample_interpret
    (PyStr (open_brackets 2000))
  = Raise RecursionError.
Proof.
  apply to_python_propagates.
  - vm_compute. reflexivity.
  - discriminate.
Defined.
